(** * Content utilities of the blog: slugs, tag filter, RSS feed items

    A shallow embedding of the utility layer of the site:

    - [src/utils/getPostsByTag.ts]   the tag filter,
    - the RSS endpoint ([get])       the feed builder,
    - [@utils/slugify]               the slugifier both of them import.

    Arrays are lists, strings are [string]s (sequences of 8-bit characters),
    a frontmatter block is a record.  JavaScript's [Array.prototype.filter],
    [map] and [includes] become [List.filter], [List.map] and a linear scan
    with string equality. *)

From Stdlib Require Import ZArith Bool Ascii String List Lia.
From stdpp Require Import base decidable list strings.

Import ListNotations.
Local Open Scope string_scope.
Local Open Scope list_scope.

(** ** JavaScript values read from a frontmatter block *)

(** The value of a frontmatter key as the program sees it at run time.  A key
    that is absent from the block reads as [JUndefined].  Numbers are kept to
    the integer-valued ones. *)
Inductive jsval : Type :=
  | JUndefined
  | JNull
  | JBool (b : bool)
  | JNum (z : Z)
  | JStr (s : string).

(** [ToBoolean] of the language: what [!v] and [if (v)] test. *)
Definition ToBoolean (v : jsval) : bool :=
  match v with
  | JUndefined => false
  | JNull => false
  | JBool b => b
  | JNum z => negb (z =? 0)%Z
  | JStr s => negb (String.eqb s "")
  end.

(** ** Data model *)

(** The frontmatter of a post ([Frontmatter] of [src/types]).  [draft] keeps
    the raw value of the key, because the feed builder applies [!] to it;
    [slug] and [ogImage] are optional keys. *)
Record Frontmatter : Type := mkFrontmatter {
  author : string;
  datetime : string;
  title : string;
  slug : option string;
  featured : bool;
  draft : jsval;
  tags : list string;
  ogImage : option string;
  description : string
}.

(** A loaded Markdown file ([MarkdownInstance<Frontmatter>] of the site
    generator): the parsed frontmatter and where the file came from. *)
Record MarkdownInstance : Type := mkMarkdownInstance {
  frontmatter : Frontmatter;
  file : string;
  url : option string
}.

(** The same post with another value under the [draft] key. *)
Definition with_draft (d : jsval) (post : MarkdownInstance) : MarkdownInstance :=
  let fm := frontmatter post in
  {| frontmatter :=
       {| author := author fm; datetime := datetime fm; title := title fm;
          slug := slug fm; featured := featured fm; draft := d;
          tags := tags fm; ogImage := ogImage fm;
          description := description fm |};
     file := file post;
     url := url post |}.

(** ** The slugifier ([@utils/slugify]) *)

(** The file of the slugifier is not among the sources at hand; the three
    functions the other files import from it are modelled from the
    specification, and the passes below are the steps it lists. *)

Module Slugify.

(** Lower-casing of one character; only the letters [A]..[Z] change. *)
Definition lower_char (c : ascii) : ascii :=
  let n := nat_of_ascii c in
  if (65 <=? n)%nat && (n <=? 90)%nat then ascii_of_nat (n + 32) else c.

(** Whitespace (tab, line feed, vertical tab, form feed, carriage return,
    space) and the punctuation characters of ASCII. *)
Definition is_sep_char (c : ascii) : bool :=
  let n := nat_of_ascii c in
  ((9 <=? n) && (n <=? 13)
   || (32 <=? n) && (n <=? 47)
   || (58 <=? n) && (n <=? 64)
   || (91 <=? n) && (n <=? 96)
   || (123 <=? n) && (n <=? 126))%nat.

(** The separator that replaces them. *)
Definition separator : ascii := "-"%char.

Fixpoint lower (s : string) : string :=
  match s with
  | EmptyString => EmptyString
  | String c r => String (lower_char c) (lower r)
  end.

(** Every maximal run of whitespace and punctuation becomes one separator.
    [in_run] tells that the character before was already part of a run. *)
Fixpoint replace_runs (in_run : bool) (s : string) : string :=
  match s with
  | EmptyString => EmptyString
  | String c r =>
      if is_sep_char c
      then (if in_run then replace_runs true r
            else String separator (replace_runs true r))
      else String c (replace_runs false r)
  end.

Fixpoint trim_leading (s : string) : string :=
  match s with
  | EmptyString => EmptyString
  | String c r => if Ascii.eqb c separator then trim_leading r else s
  end.

Fixpoint trim_trailing (s : string) : string :=
  match s with
  | EmptyString => EmptyString
  | String c r =>
      match trim_trailing r with
      | EmptyString => if Ascii.eqb c separator then EmptyString
                       else String c EmptyString
      | r' => String c r'
      end
  end.

(** Modelled from the spec: the slugifier's source file is not part of the
    sources at hand.  The text is lower-cased, whitespace and punctuation are
    replaced by a single separator, leading and trailing separators are
    trimmed. *)
Definition slugifyStr (str : string) : string :=
  trim_trailing (trim_leading (replace_runs false (lower str))).

(** Modelled from the spec: a sequence of tags gives the sequence of their
    slugs, in the same order, one per input. *)
Definition slufigyAll (arr : list string) : list string :=
  List.map slugifyStr arr.

(** Modelled from the spec: the slug of a post is the slugified [slug] key
    when the frontmatter has one, and is derived from the title otherwise. *)
Definition slugify (fm : Frontmatter) : string :=
  match slug fm with
  | Some s => slugifyStr s
  | None => slugifyStr (title fm)
  end.

End Slugify.


(** ** Dates of the language *)

Module JSDate.

(** A [Date] object holds a time value: milliseconds since the epoch, or
    [NaN] (here [None]) for an invalid date. *)
Record Date : Type := mkDate { time_value : option Z }.

Definition msPerDay : Z := 86400000.

Definition isLeapYear (y : Z) : bool :=
  ((y mod 4 =? 0) && (negb (y mod 100 =? 0) || (y mod 400 =? 0)))%Z.

Definition DayFromYear (y : Z) : Z :=
  (365 * (y - 1970) + (y - 1969) / 4 - (y - 1901) / 100 + (y - 1601) / 400)%Z.

(** Days before the first of month [m] (counted from 0) within its year. *)
Definition DayWithinYear (leap : bool) (m : Z) : Z :=
  (nth (Z.to_nat m) [0; 31; 59; 90; 120; 151; 181; 212; 243; 273; 304; 334] 0
   + (if leap && (2 <=? m) then 1 else 0))%Z.

Definition MakeDay (year month date : Z) : Z :=
  let ym := (year + month / 12)%Z in
  let mn := (month mod 12)%Z in
  (DayFromYear ym + DayWithinYear (isLeapYear ym) mn + date - 1)%Z.

Definition MakeTime (hour min sec ms : Z) : Z :=
  (hour * 3600000 + min * 60000 + sec * 1000 + ms)%Z.

Definition MakeDate (day time : Z) : Z := (day * msPerDay + time)%Z.

Definition TimeClip (t : Z) : option Z :=
  if (Z.abs t <=? 8640000000000000)%Z then Some t else None.

(** *** The Date Time String Format *)

Definition digit (c : ascii) : option Z :=
  let n := nat_of_ascii c in
  if ((48 <=? n) && (n <=? 57))%nat then Some (Z.of_nat (n - 48)) else None.

(** Exactly [k] decimal digits at the head of [s]. *)
Fixpoint digits (k : nat) (s : string) : option (Z * string) :=
  match k with
  | O => Some (0%Z, s)
  | S k' =>
      match s with
      | EmptyString => None
      | String c r =>
          d ← digit c;
          '(v, rest) ← digits k' r;
          Some ((d * 10 ^ Z.of_nat k' + v)%Z, rest)
      end
  end.

Definition expect (c : ascii) (s : string) : option string :=
  match s with
  | EmptyString => None
  | String c' r => if Ascii.eqb c c' then Some r else None
  end.

(** [YYYY], [YYYY-MM] or [YYYY-MM-DD]: year, month, day and what follows. *)
Definition parse_date (s : string) : option (Z * Z * Z * string) :=
  '(y, r) ← digits 4 s;
  match expect "-" r with
  | None => Some (y, 1%Z, 1%Z, r)
  | Some r1 =>
      '(m, r2) ← digits 2 r1;
      match expect "-" r2 with
      | None => Some (y, m, 1%Z, r2)
      | Some r3 => '(d, r4) ← digits 2 r3; Some (y, m, d, r4)
      end
  end.

(** [HH:mm], [HH:mm:ss] or [HH:mm:ss.sss]. *)
Definition parse_time (s : string) : option (Z * Z * Z * Z * string) :=
  '(h, r) ← digits 2 s;
  r1 ← expect ":" r;
  '(mi, r2) ← digits 2 r1;
  match expect ":" r2 with
  | None => Some (h, mi, 0%Z, 0%Z, r2)
  | Some r3 =>
      '(sec, r4) ← digits 2 r3;
      match expect "." r4 with
      | None => Some (h, mi, sec, 0%Z, r4)
      | Some r5 => '(ms, r6) ← digits 3 r5; Some (h, mi, sec, ms, r6)
      end
  end.

(** The UTC offset that ends a date-time: absent, [Z], or [+HH:mm] / [-HH:mm].
    The outer option is failure, the inner one absence. *)
Definition parse_offset (s : string) : option (option Z) :=
  match s with
  | EmptyString => Some None
  | String c r =>
      if Ascii.eqb c "Z" then (if String.eqb r "" then Some (Some 0%Z) else None)
      else
        sign ← (if Ascii.eqb c "+" then Some 1%Z
                else if Ascii.eqb c "-" then Some (-1)%Z else None);
        '(h, r1) ← digits 2 r;
        r2 ← expect ":" r1;
        '(m, r3) ← digits 2 r2;
        if String.eqb r3 "" && (h <=? 23)%Z && (m <=? 59)%Z
        then Some (Some (sign * (h * 60 + m) * 60000)%Z)
        else None
  end.

Definition valid_time (h mi sec ms : Z) : bool :=
  ((h <=? 23) && (mi <=? 59) && (sec <=? 59)
   || (h =? 24) && (mi =? 0) && (sec =? 0) && (ms =? 0))%Z.

(** [Date.parse] on the Date Time String Format of the language (years of
    four digits).  A date-only form is UTC; a date-time without offset is
    local time, [LocalTZA] milliseconds ahead of UTC.  Any other string gives
    [NaN]: an engine may accept more through heuristics of its own, and none
    of them is modelled here. *)
Definition parse (LocalTZA : Z) (s : string) : option Z :=
  '(y, m, d, r) ← parse_date s;
  if negb ((1 <=? m) && (m <=? 12) && (1 <=? d) && (d <=? 31))%Z then None
  else
    let day := MakeDay y (m - 1) d in
    match r with
    | EmptyString => TimeClip (MakeDate day 0)
    | String c r1 =>
        if Ascii.eqb c "T" then
          '(h, mi, sec, ms, r2) ← parse_time r1;
          off ← parse_offset r2;
          if valid_time h mi sec ms then
            let t := MakeDate day (MakeTime h mi sec ms) in
            TimeClip (t - default LocalTZA off)
          else None
        else None
    end.

End JSDate.

(** ** The tag filter ([src/utils/getPostsByTag.ts]) *)

(** [Array.prototype.includes] on an array of strings: a scan from the left
    that compares with string equality. *)
Fixpoint includes (arr : list string) (x : string) : bool :=
  match arr with
  | [] => false
  | y :: rest => if String.eqb y x then true else includes rest x
  end.

Definition getPostsByTag (posts : list MarkdownInstance) (tag : string)
  : list MarkdownInstance :=
  List.filter
    (fun post => includes (Slugify.slufigyAll (tags (frontmatter post))) tag)
    posts.

(** ** The feed builder (the RSS endpoint) *)

(** The site configuration ([src/config.ts]). *)
Module SITE.
Definition website : string := "https://abgier-avraha.github.io/".
Definition author : string := "Abgier Avraha".
Definition desc : string := "A blog for React TypeScript and Dotnet developers.".
Definition title : string := "Producing Value".
Definition ogImage : string := "default-og.png".
Definition lightAndDarkMode : bool := true.
Definition postPerPage : nat := 3.
End SITE.

(** One item of the feed, as handed to the serializer. *)
Module RSSFeedItem.
Record t : Type := mk {
  link : string;
  title : string;
  description : string;
  pubDate : JSDate.Date
}.
End RSSFeedItem.

(** The argument of the serializer [rss]. *)
Module RSSOptions.
Record t : Type := mk {
  title : string;
  description : string;
  site : string;
  items : list RSSFeedItem.t
}.
End RSSOptions.

Section FeedBuilder.

(** [Date.parse] of the engine that runs the build. *)
Variable Date_parse : string -> option Z.

(** [new Date(s)] for a string [s]: it never throws, an unrecognised string
    gives the invalid date. *)
Definition new_Date (s : string) : JSDate.Date :=
  {| JSDate.time_value := Date_parse s |}.

(** The callback of [filter]: [({ frontmatter }) => !frontmatter.draft]. *)
Definition not_draft (post : MarkdownInstance) : bool :=
  negb (ToBoolean (draft (frontmatter post))).

(** The callback of [map]. *)
Definition feedItem (post : MarkdownInstance) : RSSFeedItem.t :=
  let fm := frontmatter post in
  {| RSSFeedItem.link := "posts/" ++ Slugify.slugify fm;
     RSSFeedItem.title := title fm;
     RSSFeedItem.description := description fm;
     RSSFeedItem.pubDate := new_Date (datetime fm) |}.

(** The [items] handed to [rss]. *)
Definition feed_items (posts : list MarkdownInstance) : list RSSFeedItem.t :=
  List.map feedItem (List.filter not_draft posts).

(** The serializer of [@astrojs/rss] and what it returns. *)
Variable Response : Type.
Variable rss : RSSOptions.t -> Response.

(** The endpoint.  [posts] are the values of the eager glob import, in its
    order. *)
Definition get (posts : list MarkdownInstance) : Response :=
  rss {| RSSOptions.title := SITE.title;
         RSSOptions.description := SITE.desc;
         RSSOptions.site := SITE.website;
         RSSOptions.items := feed_items posts |}.

End FeedBuilder.

(** ** What the specification calls things *)

(** The posts of a collection whose draft flag is [false]. *)
Definition draft_is_false (post : MarkdownInstance) : bool :=
  match draft (frontmatter post) with
  | JBool false => true
  | _ => false
  end.

Definition non_drafts (posts : list MarkdownInstance) : list MarkdownInstance :=
  List.filter draft_is_false posts.

(** A post record as the data model has it: the draft flag is a boolean. *)
Definition draft_is_boolean (post : MarkdownInstance) : Prop :=
  exists b : bool, draft (frontmatter post) = JBool b.

(** The slugified tag list of a post. *)
Definition slug_tags (post : MarkdownInstance) : list string :=
  Slugify.slufigyAll (tags (frontmatter post)).

(** ** The slug form *)

Module SlugForm.
Import Slugify.

(** A character that may occur in a slug: lower-casing leaves it alone and it
    is neither whitespace nor punctuation, the separator apart. *)
Definition slug_char (c : ascii) : bool :=
  Ascii.eqb (lower_char c) c
  && (negb (is_sep_char c) || Ascii.eqb c separator).

(** Only slug characters and no two separators in a row; with [after_sep], no
    separator at the head either. *)
Fixpoint normal_runs (after_sep : bool) (s : string) : bool :=
  match s with
  | EmptyString => true
  | String c r =>
      slug_char c
      && (if Ascii.eqb c separator then negb after_sep && normal_runs true r
          else normal_runs false r)
  end.

Fixpoint ends_sep (s : string) : bool :=
  match s with
  | EmptyString => false
  | String c r =>
      match r with
      | EmptyString => Ascii.eqb c separator
      | _ => ends_sep r
      end
  end.

(** The slug form: what the slugifier produces and leaves unchanged. *)
Definition is_slug (s : string) : bool :=
  normal_runs true s && negb (ends_sep s).

End SlugForm.

(** ** The example collection of the specification *)

Definition example_post (t : string) (tg : list string) (d : bool)
    (base : MarkdownInstance) : MarkdownInstance :=
  let fm := frontmatter base in
  {| frontmatter :=
       {| author := author fm; datetime := datetime fm; title := t;
          slug := slug fm; featured := featured fm; draft := JBool d;
          tags := tg; ogImage := ogImage fm;
          description := description fm |};
     file := file base;
     url := url base |}.

Definition post_A : MarkdownInstance -> MarkdownInstance :=
  example_post "A" ["Guide"] false.

Definition post_B : MarkdownInstance -> MarkdownInstance :=
  example_post "B" ["guide"] true.

(** A post that carries the same tag in three spellings. *)
Definition post_C : MarkdownInstance -> MarkdownInstance :=
  example_post "C" ["Guide"; "react"; "guide"; "GUIDE!"] false.

(** A post with nothing but a date, to fill the keys the example leaves out. *)
Definition blank_post : MarkdownInstance :=
  {| frontmatter :=
       {| author := ""; datetime := "2022-12-01T11:00:00.348Z"; title := "";
          slug := None; featured := false; draft := JUndefined;
          tags := []; ogImage := None; description := "" |};
     file := "";
     url := None |}.

(** A published post whose date no engine can read. *)
Definition undated_post : MarkdownInstance :=
  {| frontmatter :=
       {| author := "Abgier Avraha"; datetime := "not a date";
          title := "Undated"; slug := None; featured := false;
          draft := JBool false; tags := ["guide"]; ogImage := None;
          description := "A post with a bad date." |};
     file := "src/contents/undated.md";
     url := None |}.

(** ** The rest of the site configuration ([src/config.ts]) *)

Module LOGO_IMAGE.
Definition enable : bool := false.
Definition svg : bool := false.
Definition width : Z := 216.
Definition height : Z := 46.
End LOGO_IMAGE.

(** One entry of [SOCIALS] ([SocialObjects] of [src/types]). *)
Record SocialObject : Type := mkSocialObject {
  name : string;
  href : string;
  linkTitle : string;
  active : bool
}.

Definition SOCIALS : list SocialObject :=
  [ {| name := "Github";
       href := "https://github.com/abgier-avraha";
       linkTitle := " " ++ SITE.title ++ " on Github";
       active := true |};
    {| name := "LinkedIn";
       href := "https://au.linkedin.com/in/abgier-avraha-240510126";
       linkTitle := SITE.title ++ " on LinkedIn";
       active := true |};
    {| name := "Mail";
       href := "mailto:abgier.avraha@gmail.com";
       linkTitle := "Send an email to " ++ SITE.title;
       active := true |} ].

(** ** Posts used to state how the functions compose *)

(** The same post with its tags replaced by their slugs. *)
Definition with_slug_tags (post : MarkdownInstance) : MarkdownInstance :=
  let fm := frontmatter post in
  {| frontmatter :=
       {| author := author fm; datetime := datetime fm; title := title fm;
          slug := slug fm; featured := featured fm; draft := draft fm;
          tags := Slugify.slufigyAll (tags fm); ogImage := ogImage fm;
          description := description fm |};
     file := file post;
     url := url post |}.

(** The same post as another file, by another author, with other tags, image
    and featured flag: every key the feed builder does not read is changed. *)
Definition refiled (post : MarkdownInstance) : MarkdownInstance :=
  let fm := frontmatter post in
  {| frontmatter :=
       {| author := "Somebody Else"; datetime := datetime fm;
          title := title fm; slug := slug fm;
          featured := negb (featured fm); draft := draft fm;
          tags := "moved" :: tags fm; ogImage := Some "other.png";
          description := description fm |};
     file := "src/contents/moved/" ++ file post;
     url := None |}.

(** The post under [src/contents], as its frontmatter block has it. *)
Definition shipped_post : MarkdownInstance :=
  {| frontmatter :=
       {| author := "Abgier Avraha";
          datetime := "2022-12-1T11:00:00.348Z";
          title := "React Testing with React Context";
          slug := Some "react-testing-with-react-context";
          featured := true;
          draft := JBool false;
          tags := ["guide"; "typescript"; "react"; "github"; "hooks";
                   "context"; "provider"; "vite"; "vitest"];
          ogImage := Some "";
          description := "A guide for utilizing service abstractions through React Context to swap out real services with mock services in tests." |};
     file := "src/contents/react-testing-with-react-context.md";
     url := None |}.

(** * Properties *)

(** ** Examples of the building blocks *)

Example slugify_hello : Slugify.slugifyStr "Hello World!" = "hello-world".
Proof. reflexivity. Qed.

Example parse_utc :
  JSDate.parse 0 "2022-12-01T11:00:00.348Z" = Some 1669892400348%Z.
Proof. reflexivity. Qed.

Example parse_date_only : JSDate.parse 36000000 "1970-01-02" = Some 86400000%Z.
Proof. reflexivity. Qed.

Example parse_offset_east :
  JSDate.parse 0 "2024-02-29T00:30+10:00" = Some 1709130600000%Z.
Proof. reflexivity. Qed.

Example parse_garbage : JSDate.parse 0 "not a date" = None.
Proof. reflexivity. Qed.

Example parse_end_of_day :
  JSDate.parse 0 "2022-12-01T24:00Z" = JSDate.parse 0 "2022-12-02"
  /\ JSDate.parse 0 "2022-12-01T24:01Z" = None
  /\ JSDate.parse 0 "2022-13-01" = None.
Proof. repeat split. Qed.

(** The [datetime] of the post under [src/contents] writes its day with one
    digit: it is outside the format, and what [Date.parse] makes of it is up
    to the engine. *)
Example parse_one_digit_day :
  JSDate.parse 0 "2022-12-1T11:00:00.348Z" = None.
Proof. reflexivity. Qed.

(** ** The slugifier *)

Module SlugifyFacts.
Import Slugify SlugForm.

Ltac each_char c :=
  destruct c as [[] [] [] [] [] [] [] []]; vm_compute; try reflexivity;
  try discriminate; auto.

Lemma lower_char_idem c : lower_char (lower_char c) = lower_char c.
Proof. each_char c. Qed.

Lemma is_sep_lower_char c : is_sep_char (lower_char c) = is_sep_char c.
Proof. each_char c. Qed.

Lemma sep_is_separator c : Ascii.eqb c separator = true -> is_sep_char c = true.
Proof. intros H%Ascii.eqb_eq. subst c. reflexivity. Qed.

Lemma slug_char_lower c : slug_char c = true -> lower_char c = c.
Proof.
  unfold slug_char. intros [H _]%andb_prop. now apply Ascii.eqb_eq.
Qed.

Lemma slug_char_sep c :
  slug_char c = true -> is_sep_char c = true -> c = separator.
Proof.
  unfold slug_char. intros [_ H]%andb_prop Hs. rewrite Hs in H.
  simpl in H. now apply Ascii.eqb_eq.
Qed.

Lemma slug_char_lowered c :
  is_sep_char (lower_char c) = false -> slug_char (lower_char c) = true.
Proof.
  intros H. unfold slug_char. rewrite lower_char_idem, Ascii.eqb_refl, H.
  reflexivity.
Qed.

Lemma normal_runs_weaken s : normal_runs true s = true -> normal_runs false s = true.
Proof.
  destruct s as [|c r]; simpl; [easy|].
  destruct (Ascii.eqb c separator); simpl; [|easy].
  rewrite andb_false_r. discriminate.
Qed.

(** *** The three passes produce the slug form *)

Lemma replace_runs_normal s : forall b,
  normal_runs b (replace_runs b (lower s)) = true.
Proof.
  induction s as [|c r IH]; intros b; simpl; [reflexivity|].
  destruct (is_sep_char (lower_char c)) eqn:Hs.
  - destruct b; [apply IH|]. simpl. now rewrite IH.
  - simpl. rewrite (slug_char_lowered _ Hs). simpl.
    destruct (Ascii.eqb (lower_char c) separator) eqn:He.
    + apply sep_is_separator in He. congruence.
    + apply IH.
Qed.

Lemma trim_leading_normal s : forall b,
  normal_runs b s = true -> normal_runs true (trim_leading s) = true.
Proof.
  induction s as [|c r IH]; intros b; simpl; [reflexivity|].
  destruct (Ascii.eqb c separator) eqn:He.
  - intros [_ [_ H]%andb_prop]%andb_prop. now apply (IH true).
  - simpl. now rewrite He.
Qed.

Lemma trim_trailing_normal s : forall b,
  normal_runs b s = true -> normal_runs b (trim_trailing s) = true.
Proof.
  induction s as [|c r IH]; intros b; simpl; [reflexivity|].
  intros [Hc H]%andb_prop.
  destruct (Ascii.eqb c separator) eqn:He.
  - apply andb_prop in H as [Hb H]. apply IH in H.
    destruct (trim_trailing r) as [|c' t]; [reflexivity|].
    cbn [normal_runs]. rewrite Hc, He, Hb. exact H.
  - apply IH in H.
    destruct (trim_trailing r) as [|c' t].
    + simpl. now rewrite Hc, He.
    + cbn [normal_runs]. rewrite Hc, He. exact H.
Qed.

Lemma trim_trailing_ends s : ends_sep (trim_trailing s) = false.
Proof.
  induction s as [|c r IH]; simpl; [reflexivity|].
  destruct (trim_trailing r) as [|c' t].
  - destruct (Ascii.eqb c separator) eqn:He; simpl; [reflexivity|exact He].
  - exact IH.
Qed.

Lemma slugifyStr_is_slug str : is_slug (slugifyStr str) = true.
Proof.
  unfold is_slug, slugifyStr. rewrite trim_trailing_ends.
  rewrite trim_trailing_normal; [reflexivity|].
  apply (trim_leading_normal _ false), replace_runs_normal.
Qed.

(** *** The three passes leave the slug form unchanged *)

Lemma lower_normal s : forall b, normal_runs b s = true -> lower s = s.
Proof.
  induction s as [|c r IH]; intros b; simpl; [reflexivity|].
  intros [Hc H]%andb_prop. rewrite (slug_char_lower _ Hc). f_equal.
  destruct (Ascii.eqb c separator).
  - apply andb_prop in H as [_ H]. now apply (IH true).
  - now apply (IH false).
Qed.

Lemma replace_runs_fixed s : forall b,
  normal_runs b s = true -> replace_runs b s = s.
Proof.
  induction s as [|c r IH]; intros b; simpl; [reflexivity|].
  intros [Hc H]%andb_prop.
  destruct (is_sep_char c) eqn:Hs.
  - pose proof (slug_char_sep _ Hc Hs) as ->. simpl in H.
    apply andb_prop in H as [Hb H]. destruct b; [discriminate|].
    now rewrite (IH true).
  - destruct (Ascii.eqb c separator) eqn:He.
    + apply sep_is_separator in He. congruence.
    + now rewrite (IH false).
Qed.

Lemma trim_leading_fixed s : normal_runs true s = true -> trim_leading s = s.
Proof.
  destruct s as [|c r]; simpl; [reflexivity|].
  destruct (Ascii.eqb c separator); [|reflexivity].
  rewrite andb_false_r. discriminate.
Qed.

Lemma trim_trailing_fixed s : ends_sep s = false -> trim_trailing s = s.
Proof.
  induction s as [|c r IH]; [reflexivity|].
  cbn [ends_sep trim_trailing]. destruct r as [|c' r'].
  - simpl. now intros ->.
  - intros H. now rewrite (IH H).
Qed.

Lemma slugifyStr_fixed s : is_slug s = true -> slugifyStr s = s.
Proof.
  unfold is_slug, slugifyStr. intros [Hn He]%andb_prop.
  apply negb_true_iff in He.
  rewrite (lower_normal _ _ Hn).
  rewrite (replace_runs_fixed _ false (normal_runs_weaken _ Hn)).
  rewrite (trim_leading_fixed _ Hn).
  now apply trim_trailing_fixed.
Qed.

End SlugifyFacts.

(** C6.  Slugifying a slug changes nothing: for every text [x],
    [slugify (slugify x) = slugify x].  The slugifier is a function, so equal
    inputs give equal slugs. *)
Theorem slugify_idempotent (x : string) :
  Slugify.slugifyStr (Slugify.slugifyStr x) = Slugify.slugifyStr x.
Proof.
  apply SlugifyFacts.slugifyStr_fixed, SlugifyFacts.slugifyStr_is_slug.
Qed.

Example slugify_runs :
  Slugify.slugifyStr "  React &  TypeScript -- a_guide?! " = "react-typescript-a-guide".
Proof. reflexivity. Qed.

(** C7.  The slugifier applied to a sequence of tags returns a sequence of the
    same length whose entry at every position is the slug of the tag at that
    position: nothing is dropped, merged or reordered, also when two tags
    have the same slug. *)
Theorem slufigyAll_positional (arr : list string) :
  length (Slugify.slufigyAll arr) = length arr
  /\ forall i : nat,
       Slugify.slufigyAll arr !! i = Slugify.slugifyStr <$> arr !! i.
Proof.
  unfold Slugify.slufigyAll. split.
  - apply List.length_map.
  - intros i. apply list_lookup_fmap.
Qed.

Example slufigyAll_keeps_duplicates :
  Slugify.slufigyAll ["Guide"; "react"; "guide"; "GUIDE!"]
  = ["guide"; "react"; "guide"; "guide"].
Proof. reflexivity. Qed.

(** ** The tag filter *)

Section TagFilterFacts.

Implicit Types (posts : list MarkdownInstance) (post : MarkdownInstance).
Implicit Types (tag : string).

Lemma includes_spec (arr : list string) (x : string) :
  includes arr x = true <-> x ∈ arr.
Proof.
  induction arr as [|y rest IH]; simpl.
  - split; [discriminate|]. intros H. inversion H.
  - destruct (String.eqb y x) eqn:E.
    + apply String.eqb_eq in E. subst y. split; [constructor|reflexivity].
    + apply String.eqb_neq in E. rewrite IH. split.
      * now constructor.
      * intros H. inversion H; subst; [congruence|assumption].
Qed.

Lemma includes_false (arr : list string) (x : string) :
  x ∉ arr -> includes arr x = false.
Proof.
  intros H. destruct (includes arr x) eqn:E; [|reflexivity].
  now apply includes_spec in E.
Qed.

Lemma filter_sublist {A : Type} (f : A -> bool) (l : list A) :
  sublist (List.filter f l) l.
Proof.
  induction l as [|x l IH]; simpl.
  - constructor.
  - destruct (f x); now constructor.
Qed.

Lemma getPostsByTag_app posts1 posts2 tag :
  getPostsByTag (posts1 ++ posts2) tag
  = getPostsByTag posts1 tag ++ getPostsByTag posts2 tag.
Proof. apply List.filter_app. Qed.

Lemma getPostsByTag_elem posts tag post :
  post ∈ getPostsByTag posts tag <-> post ∈ posts /\ tag ∈ slug_tags post.
Proof.
  unfold getPostsByTag, slug_tags.
  rewrite !list_elem_of_In, List.filter_In, includes_spec, list_elem_of_In.
  reflexivity.
Qed.

End TagFilterFacts.

(** C3.  The tag filter returns a subsequence of the posts, in their order;
    every post it returns has the tag in its slugified tag list; and a post
    of the collection is returned exactly when one of its tags has a slug
    equal, as a string, to the tag asked for. *)
Theorem getPostsByTag_subsequence (P : list MarkdownInstance) (T : string) :
  sublist (getPostsByTag P T) P
  /\ Forall (fun post => T ∈ slug_tags post) (getPostsByTag P T)
  /\ forall post : MarkdownInstance,
       post ∈ getPostsByTag P T
       <-> post ∈ P
           /\ exists t : string,
                t ∈ tags (frontmatter post) /\ Slugify.slugifyStr t = T.
Proof.
  split; [apply filter_sublist|]. split.
  - apply Forall_forall. intros post H. now apply getPostsByTag_elem in H.
  - intros post. rewrite getPostsByTag_elem. unfold slug_tags, Slugify.slufigyAll.
    rewrite list_elem_of_fmap. split.
    + intros [Hin [t [-> Ht]]]. eauto.
    + intros [Hin [t [Ht <-]]]. eauto.
Qed.

Example getPostsByTag_no_partial_match :
  getPostsByTag [post_A blank_post; post_B blank_post] "guid" = []
  /\ getPostsByTag [post_A blank_post; post_B blank_post] "guides" = [].
Proof. split; reflexivity. Qed.

(** C8.  When no post has the tag in its slugified tag list, the tag filter
    returns the empty sequence; it is a total function and raises nothing. *)
Theorem getPostsByTag_no_match (P : list MarkdownInstance) (T : string) :
  Forall (fun post => T ∉ slug_tags post) P ->
  getPostsByTag P T = [].
Proof.
  unfold getPostsByTag. induction 1 as [|post P Hpost _ IH]; simpl.
  - reflexivity.
  - unfold slug_tags in Hpost. now rewrite (includes_false _ _ Hpost).
Qed.

Lemma getPostsByTag_no_match_witness :
  Forall (fun post => "typescript" ∉ slug_tags post)
    [post_A blank_post; post_B blank_post]
  /\ getPostsByTag [post_A blank_post; post_B blank_post] "typescript" = [].
Proof.
  assert (H : Forall (fun post => "typescript" ∉ slug_tags post)
                [post_A blank_post; post_B blank_post]).
  { repeat constructor; intros Hin%includes_spec; discriminate Hin. }
  split; [exact H|].
  exact (getPostsByTag_no_match _ _ H).
Defined.

(** C10.  A post whose slugified tag list has the tag more than once is
    returned once, in its place: the result is what the filter returns for
    the posts before it, then the post, then what the filter returns for the
    posts after it. *)
Theorem getPostsByTag_duplicate_tags
    (pre suf : list MarkdownInstance) (post : MarkdownInstance) (T : string) :
  (1 < count_occ string_dec (slug_tags post) T)%nat ->
  getPostsByTag (pre ++ post :: suf) T
  = getPostsByTag pre T ++ post :: getPostsByTag suf T.
Proof.
  intros Hcount. rewrite getPostsByTag_app. f_equal.
  unfold getPostsByTag at 1. simpl.
  assert (Hin : T ∈ slug_tags post).
  { apply list_elem_of_In, (count_occ_In string_dec). lia. }
  apply includes_spec in Hin. unfold slug_tags in Hin. now rewrite Hin.
Qed.

Lemma getPostsByTag_duplicate_tags_witness :
  (1 < count_occ string_dec (slug_tags (post_C blank_post)) "guide")%nat
  /\ getPostsByTag
       ([post_B blank_post] ++ post_C blank_post :: [post_A blank_post]) "guide"
     = getPostsByTag [post_B blank_post] "guide"
       ++ post_C blank_post :: getPostsByTag [post_A blank_post] "guide".
Proof.
  assert (H : (1 < count_occ string_dec
                     (slug_tags (post_C blank_post)) "guide")%nat).
  { vm_compute. lia. }
  split; [exact H|].
  exact (getPostsByTag_duplicate_tags [post_B blank_post] [post_A blank_post]
           (post_C blank_post) "guide" H).
Defined.

(** C1, as the code has it.  For the example collection (post A with tags
    [Guide], not a draft; post B with tags [guide], a draft) the tag filter
    asked for [guide] returns both posts, A then B: both slugified tag lists
    contain [guide] and the filter does not read the draft flag. *)
Theorem getPostsByTag_example (base_a base_b : MarkdownInstance) :
  getPostsByTag [post_A base_a; post_B base_b] "guide"
  = [post_A base_a; post_B base_b].
Proof. reflexivity. Qed.

(** C1, as stated, fails: the result for the example collection is not the
    sequence holding post A alone. *)
Lemma getPostsByTag_example_not_only_A :
  getPostsByTag [post_A blank_post; post_B blank_post] "guide"
  = [post_A blank_post; post_B blank_post]
  /\ length (getPostsByTag [post_A blank_post; post_B blank_post] "guide")
     = 2%nat
  /\ getPostsByTag [post_A blank_post; post_B blank_post] "guide"
     <> [post_A blank_post].
Proof.
  split; [reflexivity|]. split; [reflexivity|]. discriminate.
Qed.

(** ** The feed builder *)

Section FeedBuilderFacts.

Variable Date_parse : string -> option Z.

Implicit Types (posts : list MarkdownInstance) (post : MarkdownInstance).

Lemma feed_items_app posts1 posts2 :
  feed_items Date_parse (posts1 ++ posts2)
  = feed_items Date_parse posts1 ++ feed_items Date_parse posts2.
Proof. unfold feed_items. now rewrite List.filter_app, List.map_app. Qed.

Lemma feed_items_cons post posts :
  feed_items Date_parse (post :: posts)
  = (if not_draft post then [feedItem Date_parse post] else [])
    ++ feed_items Date_parse posts.
Proof. unfold feed_items. simpl. now destruct (not_draft post). Qed.

(** Splitting a collection at one post. *)
Lemma feed_items_middle posts1 post posts2 :
  feed_items Date_parse (posts1 ++ post :: posts2)
  = feed_items Date_parse posts1
    ++ (if not_draft post then [feedItem Date_parse post] else [])
    ++ feed_items Date_parse posts2.
Proof. now rewrite feed_items_app, feed_items_cons. Qed.

(** The feed item of a post does not read the [draft] key. *)
Lemma feedItem_with_draft d post :
  feedItem Date_parse (with_draft d post) = feedItem Date_parse post.
Proof. reflexivity. Qed.

Lemma not_draft_with_draft d post : not_draft (with_draft d post) = negb (ToBoolean d).
Proof. reflexivity. Qed.

(** On a boolean draft flag, the test [!draft] is the test [draft == false]. *)
Lemma not_draft_boolean post :
  draft_is_boolean post -> not_draft post = draft_is_false post.
Proof.
  unfold draft_is_boolean, not_draft, draft_is_false.
  intros [b ->]. now destruct b.
Qed.

Lemma filter_not_draft_boolean posts :
  Forall draft_is_boolean posts ->
  List.filter not_draft posts = non_drafts posts.
Proof.
  unfold non_drafts. induction 1 as [|post posts Hb _ IH]; simpl.
  - reflexivity.
  - now rewrite (not_draft_boolean _ Hb), IH.
Qed.

End FeedBuilderFacts.

(** C2.  For a collection of post records (the draft flag of each is a
    boolean) the feed is the sequence of the feed items of the posts whose
    draft flag is [false]: as many items as there are such posts, the item
    at each position built from the post at that position among them, and
    those posts are a subsequence of the collection, in its order. *)
Theorem feed_items_non_drafts
    (Date_parse : string -> option Z) (P : list MarkdownInstance) :
  Forall draft_is_boolean P ->
  feed_items Date_parse P = List.map (feedItem Date_parse) (non_drafts P)
  /\ length (feed_items Date_parse P) = length (non_drafts P)
  /\ sublist (non_drafts P) P
  /\ forall i : nat,
       feed_items Date_parse P !! i
       = feedItem Date_parse <$> non_drafts P !! i.
Proof.
  intros HP. unfold feed_items. rewrite (filter_not_draft_boolean _ HP).
  split; [reflexivity|]. split; [apply List.length_map|].
  split; [apply filter_sublist|].
  intros i. apply list_lookup_fmap.
Qed.

Lemma feed_items_non_drafts_witness :
  Forall draft_is_boolean [post_A blank_post; post_B blank_post]
  /\ feed_items (JSDate.parse 0) [post_A blank_post; post_B blank_post]
     = [feedItem (JSDate.parse 0) (post_A blank_post)].
Proof.
  assert (H : Forall draft_is_boolean [post_A blank_post; post_B blank_post]).
  { repeat constructor; eexists; reflexivity. }
  split; [exact H|].
  exact (proj1 (feed_items_non_drafts (JSDate.parse 0) _ H)).
Defined.

(** C4.  The feed items stand in one-to-one, ordered correspondence with the
    posts that pass the draft test, and for each pair: the link is the fixed
    prefix [posts/] followed by the slug of the post, title and description
    are those of the post, and the publish date is the [Date] built from the
    [datetime] string of the post. *)
Theorem feed_item_fields
    (Date_parse : string -> option Z) (P : list MarkdownInstance) :
  Forall2
    (fun (post : MarkdownInstance) (item : RSSFeedItem.t) =>
       RSSFeedItem.link item
       = ("posts/" ++ Slugify.slugify (frontmatter post))%string
       /\ RSSFeedItem.title item = title (frontmatter post)
       /\ RSSFeedItem.description item = description (frontmatter post)
       /\ RSSFeedItem.pubDate item
          = new_Date Date_parse (datetime (frontmatter post)))
    (List.filter not_draft P) (feed_items Date_parse P).
Proof.
  unfold feed_items.
  induction (List.filter not_draft P) as [|post posts IH]; simpl.
  - constructor.
  - constructor; [|exact IH]. repeat split.
Qed.

Example feed_item_example :
  feed_items (JSDate.parse 0)
    [example_post "React Testing" ["guide"] false blank_post]
  = [ {| RSSFeedItem.link := "posts/react-testing";
         RSSFeedItem.title := "React Testing";
         RSSFeedItem.description := "";
         RSSFeedItem.pubDate := {| JSDate.time_value := Some 1669892400348%Z |} |} ].
Proof. reflexivity. Qed.

(** C5, as the code has it.  The feed builder does not validate dates.  For a
    post that passes the draft test and whose [datetime] the engine cannot
    parse, the builder still produces the item of the post, in its place,
    with the invalid date as publish date; it raises nothing itself, and
    hands the items to the serializer as they are. *)
Theorem feed_items_unparseable_datetime
    (Date_parse : string -> option Z)
    (pre suf : list MarkdownInstance) (post : MarkdownInstance) :
  not_draft post = true ->
  Date_parse (datetime (frontmatter post)) = None ->
  feed_items Date_parse (pre ++ post :: suf)
  = feed_items Date_parse pre
    ++ {| RSSFeedItem.link := "posts/" ++ Slugify.slugify (frontmatter post);
          RSSFeedItem.title := title (frontmatter post);
          RSSFeedItem.description := description (frontmatter post);
          RSSFeedItem.pubDate := {| JSDate.time_value := None |} |}
       :: feed_items Date_parse suf.
Proof.
  intros Hdraft Hparse. rewrite feed_items_middle, Hdraft. simpl.
  unfold feedItem, new_Date. now rewrite Hparse.
Qed.

Lemma feed_items_unparseable_datetime_witness :
  not_draft undated_post = true
  /\ JSDate.parse 0 (datetime (frontmatter undated_post)) = None
  /\ feed_items (JSDate.parse 0)
       ([post_A blank_post] ++ undated_post :: [post_B blank_post])
     = feed_items (JSDate.parse 0) [post_A blank_post]
       ++ {| RSSFeedItem.link := "posts/undated";
             RSSFeedItem.title := "Undated";
             RSSFeedItem.description := "A post with a bad date.";
             RSSFeedItem.pubDate := {| JSDate.time_value := None |} |}
          :: feed_items (JSDate.parse 0) [post_B blank_post].
Proof.
  split; [reflexivity|]. split; [reflexivity|].
  exact (feed_items_unparseable_datetime (JSDate.parse 0)
           [post_A blank_post] [post_B blank_post] undated_post
           eq_refl eq_refl).
Defined.

(** C5, as stated, fails: from a published post whose [datetime] does not
    parse, the builder produces a feed item, dated with the invalid date. *)
Lemma feed_items_of_undated_post :
  JSDate.parse 0 (datetime (frontmatter undated_post)) = None
  /\ feed_items (JSDate.parse 0) [undated_post]
     = [ {| RSSFeedItem.link := "posts/undated";
            RSSFeedItem.title := "Undated";
            RSSFeedItem.description := "A post with a bad date.";
            RSSFeedItem.pubDate := {| JSDate.time_value := None |} |} ].
Proof. split; reflexivity. Qed.

(** C9.  The draft test is a test of falsiness.  A post whose [draft] key is
    absent (it reads as [undefined]) gives the feed that the same post with
    [draft: false] gives, namely the feed with the item of the post in its
    place; and whatever the value of the key, the post is left out exactly
    when the value is truthy. *)
Theorem feed_items_draft_falsy
    (Date_parse : string -> option Z)
    (pre suf : list MarkdownInstance) (post : MarkdownInstance) :
  feed_items Date_parse (pre ++ with_draft JUndefined post :: suf)
  = feed_items Date_parse (pre ++ with_draft (JBool false) post :: suf)
  /\ feed_items Date_parse (pre ++ with_draft JUndefined post :: suf)
     = feed_items Date_parse pre
       ++ feedItem Date_parse post :: feed_items Date_parse suf
  /\ forall d : jsval,
       feed_items Date_parse (pre ++ with_draft d post :: suf)
       = feed_items Date_parse pre
         ++ (if ToBoolean d then [] else [feedItem Date_parse post])
         ++ feed_items Date_parse suf.
Proof.
  split; [|split].
  - now rewrite !feed_items_middle.
  - now rewrite feed_items_middle.
  - intros d. rewrite feed_items_middle, not_draft_with_draft, feedItem_with_draft.
    now destruct (ToBoolean d).
Qed.

Example feed_items_falsy_values :
  List.map
    (fun d => length (feed_items (JSDate.parse 0) [with_draft d blank_post]))
    [JUndefined; JNull; JBool false; JNum 0; JStr "";
     JBool true; JNum 1; JStr "false"]
  = [1; 1; 1; 1; 1; 0; 0; 0]%nat.
Proof. reflexivity. Qed.

(** The endpoint hands exactly these items, and the site's title,
    description and address, to the serializer. *)
Lemma get_items
    (Date_parse : string -> option Z) (P : list MarkdownInstance) :
  get Date_parse RSSOptions.t (fun options => options) P
  = {| RSSOptions.title := "Producing Value";
       RSSOptions.description :=
         "A blog for React TypeScript and Dotnet developers.";
       RSSOptions.site := "https://abgier-avraha.github.io/";
       RSSOptions.items := feed_items Date_parse P |}.
Proof. reflexivity. Qed.

(** * Further properties of the tag filter and the feed builder *)

Example shipped_post_views (Date_parse : string -> option Z) :
  getPostsByTag [shipped_post] "react" = [shipped_post]
  /\ getPostsByTag [shipped_post] "React" = []
  /\ feed_items Date_parse [shipped_post]
     = [ {| RSSFeedItem.link := "posts/react-testing-with-react-context";
            RSSFeedItem.title := "React Testing with React Context";
            RSSFeedItem.description := description (frontmatter shipped_post);
            RSSFeedItem.pubDate :=
              new_Date Date_parse "2022-12-1T11:00:00.348Z" |} ].
Proof. repeat split. Qed.

Example SOCIALS_link_titles :
  List.map linkTitle SOCIALS
  = [" Producing Value on Github"; "Producing Value on LinkedIn";
     "Send an email to Producing Value"]
  /\ List.map active SOCIALS = [true; true; true].
Proof. split; reflexivity. Qed.

(** ** [Array.prototype.filter] *)

Section FilterFacts.

Context {A : Type}.
Implicit Types (f g : A -> bool) (l : list A).

Lemma filter_twice f l : List.filter f (List.filter f l) = List.filter f l.
Proof.
  induction l as [|x l IH]; simpl; [reflexivity|].
  destruct (f x) eqn:E; simpl; [|exact IH]. now rewrite E, IH.
Qed.

Lemma filter_swap f g l :
  List.filter f (List.filter g l) = List.filter g (List.filter f l).
Proof.
  induction l as [|x l IH]; simpl; [reflexivity|].
  destruct (g x) eqn:Eg, (f x) eqn:Ef; simpl; rewrite ?Eg, ?Ef, IH; reflexivity.
Qed.

Lemma filter_shorter f l : (length (List.filter f l) <= length l)%nat.
Proof.
  induction l as [|x l IH]; simpl; [lia|]. destruct (f x); simpl; lia.
Qed.

Lemma filter_keeps_all f l :
  List.filter f l = l <-> Forall (fun x => f x = true) l.
Proof.
  induction l as [|x l IH]; simpl.
  - split; [constructor|reflexivity].
  - destruct (f x) eqn:E; split.
    + intros H. injection H as H. constructor; [exact E|now apply IH].
    + intros H. inversion H; subst. f_equal. now apply IH.
    + intros H. pose proof (filter_shorter f l) as Hlen.
      rewrite H in Hlen. simpl in Hlen. lia.
    + intros H. inversion H; subst. congruence.
Qed.

Lemma filter_keeps_none f l :
  List.filter f l = [] <-> Forall (fun x => f x = false) l.
Proof.
  induction l as [|x l IH]; simpl.
  - split; [constructor|reflexivity].
  - destruct (f x) eqn:E; split.
    + discriminate.
    + intros H. inversion H; subst. congruence.
    + intros H. constructor; [exact E|now apply IH].
    + intros H. inversion H; subst. now apply IH.
Qed.

Lemma filter_sublist_mono f l1 l2 :
  sublist l1 l2 -> sublist (List.filter f l1) (List.filter f l2).
Proof.
  induction 1 as [|x l1 l2 _ IH|x l1 l2 _ IH]; simpl.
  - constructor.
  - destruct (f x); [now constructor|exact IH].
  - destruct (f x); [now constructor|exact IH].
Qed.

End FilterFacts.

(** The callback of the tag filter reads the tags of a post and nothing
    else. *)
Lemma tag_test_tags (post post' : MarkdownInstance) (tag : string) :
  tags (frontmatter post') = tags (frontmatter post) ->
  includes (Slugify.slufigyAll (tags (frontmatter post'))) tag
  = includes (Slugify.slufigyAll (tags (frontmatter post))) tag.
Proof. now intros ->. Qed.

Lemma slufigyAll_twice (arr : list string) :
  Slugify.slufigyAll (Slugify.slufigyAll arr) = Slugify.slufigyAll arr.
Proof.
  unfold Slugify.slufigyAll. rewrite List.map_map. apply List.map_ext.
  intros t. apply SlugifyFacts.slugifyStr_fixed, SlugifyFacts.slugifyStr_is_slug.
Qed.

(** ** The tag filter *)

(** X1.  Filtering by the same tag a second time changes nothing, and
    filtering by two tags one after the other gives the same posts in either
    order of the two tags. *)
Theorem getPostsByTag_twice (P : list MarkdownInstance) (T1 T2 : string) :
  getPostsByTag (getPostsByTag P T1) T1 = getPostsByTag P T1
  /\ getPostsByTag (getPostsByTag P T1) T2
     = getPostsByTag (getPostsByTag P T2) T1.
Proof.
  unfold getPostsByTag. split; [apply filter_twice|apply filter_swap].
Qed.

(** X2.  The tag filter works post by post: the result for a concatenation is
    the concatenation of the results, the empty collection gives the empty
    result, and the result is never longer than the collection. *)
Theorem getPostsByTag_concat (P1 P2 : list MarkdownInstance) (T : string) :
  getPostsByTag [] T = []
  /\ getPostsByTag (P1 ++ P2) T = getPostsByTag P1 T ++ getPostsByTag P2 T
  /\ (length (getPostsByTag P1 T) <= length P1)%nat.
Proof.
  unfold getPostsByTag. split; [reflexivity|].
  split; [apply List.filter_app|apply filter_shorter].
Qed.

(** X3.  The tag asked for is compared as it is given, it is not slugified:
    for a tag that is not in slug form the result is empty, whatever the
    posts are. *)
Theorem getPostsByTag_raw_tag (P : list MarkdownInstance) (T : string) :
  SlugForm.is_slug T = false ->
  getPostsByTag P T = [].
Proof.
  intros HT. unfold getPostsByTag. apply filter_keeps_none, Forall_forall.
  intros post _. apply includes_false.
  unfold Slugify.slufigyAll. intros Hin%list_elem_of_In%List.in_map_iff.
  destruct Hin as [t [<- _]].
  rewrite SlugifyFacts.slugifyStr_is_slug in HT. discriminate.
Qed.

Lemma getPostsByTag_raw_tag_witness :
  SlugForm.is_slug "Guide" = false
  /\ getPostsByTag [post_A blank_post; post_B blank_post] "Guide" = [].
Proof.
  split; [reflexivity|].
  exact (getPostsByTag_raw_tag [post_A blank_post; post_B blank_post] "Guide"
           eq_refl).
Defined.

(** X4.  The tag filter reads the tags of a post and nothing else: changing
    the posts in any way that keeps their tags, then filtering, is filtering
    and then changing the posts. *)
Theorem getPostsByTag_reads_tags_only
    (g : MarkdownInstance -> MarkdownInstance)
    (P : list MarkdownInstance) (T : string) :
  (forall post, tags (frontmatter (g post)) = tags (frontmatter post)) ->
  getPostsByTag (List.map g P) T = List.map g (getPostsByTag P T).
Proof.
  intros Hg. unfold getPostsByTag. rewrite List.filter_map_swap. f_equal.
  apply List.filter_ext. intros post. now apply tag_test_tags.
Qed.

Lemma getPostsByTag_reads_tags_only_witness :
  (forall post,
     tags (frontmatter (with_draft (JBool true) post)) = tags (frontmatter post))
  /\ getPostsByTag
       (List.map (with_draft (JBool true)) [post_A blank_post; blank_post])
       "guide"
     = List.map (with_draft (JBool true))
         (getPostsByTag [post_A blank_post; blank_post] "guide").
Proof.
  split; [reflexivity|].
  exact (getPostsByTag_reads_tags_only (with_draft (JBool true))
           [post_A blank_post; blank_post] "guide" (fun _ => eq_refl)).
Defined.

(** X5.  A post without tags is returned for no tag. *)
Theorem getPostsByTag_untagged
    (P : list MarkdownInstance) (T : string) (post : MarkdownInstance) :
  tags (frontmatter post) = [] ->
  post ∉ getPostsByTag P T.
Proof.
  intros Htags Hin. apply getPostsByTag_elem in Hin as [_ Hin].
  unfold slug_tags in Hin. rewrite Htags in Hin. inversion Hin.
Qed.

Lemma getPostsByTag_untagged_witness :
  tags (frontmatter blank_post) = []
  /\ blank_post ∉ getPostsByTag [post_A blank_post; blank_post] "guide".
Proof.
  split; [reflexivity|].
  exact (getPostsByTag_untagged [post_A blank_post; blank_post] "guide"
           blank_post eq_refl).
Defined.

(** X6.  Only the slugs of the tags count: replacing the tags of every post
    by their slugs, then filtering, is filtering and then replacing. *)
Theorem getPostsByTag_slug_tags (P : list MarkdownInstance) (T : string) :
  getPostsByTag (List.map with_slug_tags P) T
  = List.map with_slug_tags (getPostsByTag P T).
Proof.
  unfold getPostsByTag. rewrite List.filter_map_swap. f_equal.
  apply List.filter_ext. intros post. simpl. now rewrite slufigyAll_twice.
Qed.

(** X7.  The tag filter returns the whole collection exactly when every post
    of it has the tag in its slugified tag list. *)
Theorem getPostsByTag_all (P : list MarkdownInstance) (T : string) :
  getPostsByTag P T = P <-> Forall (fun post => T ∈ slug_tags post) P.
Proof.
  unfold getPostsByTag. rewrite filter_keeps_all.
  apply Forall_iff. intros post. apply includes_spec.
Qed.

(** ** The feed builder *)

(** X8.  The feed builder works post by post: the feed of a concatenation is
    the concatenation of the feeds, the empty collection gives the empty
    feed, and the feed never has more items than there are posts. *)
Theorem feed_items_concat
    (Date_parse : string -> option Z) (P1 P2 : list MarkdownInstance) :
  feed_items Date_parse [] = []
  /\ feed_items Date_parse (P1 ++ P2)
     = feed_items Date_parse P1 ++ feed_items Date_parse P2
  /\ (length (feed_items Date_parse P1) <= length P1)%nat.
Proof.
  unfold feed_items. split; [reflexivity|]. split.
  - now rewrite List.filter_app, List.map_app.
  - rewrite List.length_map. apply filter_shorter.
Qed.

(** X9.  Taking the drafts out beforehand does not change the feed, and the
    feed is empty exactly when the draft value of every post is truthy. *)
Theorem feed_items_drafts_removed
    (Date_parse : string -> option Z) (P : list MarkdownInstance) :
  feed_items Date_parse (List.filter not_draft P) = feed_items Date_parse P
  /\ (feed_items Date_parse P = []
      <-> Forall (fun post => ToBoolean (draft (frontmatter post)) = true) P).
Proof.
  unfold feed_items. split; [now rewrite filter_twice|].
  split.
  - intros H. apply List.map_eq_nil, filter_keeps_none in H.
    eapply Forall_impl; [exact H|]. unfold not_draft. intros post.
    now destruct (ToBoolean (draft (frontmatter post))).
  - intros H. apply (Forall_impl _ (fun post => not_draft post = false)) in H.
    + apply filter_keeps_none in H. now rewrite H.
    + unfold not_draft. now intros post ->.
Qed.

(** X10.  The feed builder reads, of a post, the truth value of [draft], the
    slug, the title, the description and the datetime, and nothing else:
    changing the posts in any way that keeps these gives the same feed. *)
Theorem feed_items_reads
    (Date_parse : string -> option Z)
    (g : MarkdownInstance -> MarkdownInstance) (P : list MarkdownInstance) :
  (forall post,
     ToBoolean (draft (frontmatter (g post)))
     = ToBoolean (draft (frontmatter post))
     /\ Slugify.slugify (frontmatter (g post)) = Slugify.slugify (frontmatter post)
     /\ title (frontmatter (g post)) = title (frontmatter post)
     /\ description (frontmatter (g post)) = description (frontmatter post)
     /\ datetime (frontmatter (g post)) = datetime (frontmatter post)) ->
  feed_items Date_parse (List.map g P) = feed_items Date_parse P.
Proof.
  intros Hg. unfold feed_items.
  rewrite List.filter_map_swap, List.map_map.
  rewrite (List.filter_ext _ not_draft).
  - apply List.map_ext. intros post.
    destruct (Hg post) as (_ & Hs & Ht & Hd & Hdt).
    unfold feedItem. now rewrite Hs, Ht, Hd, Hdt.
  - intros post. unfold not_draft. now rewrite (proj1 (Hg post)).
Qed.

Lemma feed_items_reads_witness :
  (forall post,
     ToBoolean (draft (frontmatter (refiled post)))
     = ToBoolean (draft (frontmatter post))
     /\ Slugify.slugify (frontmatter (refiled post))
        = Slugify.slugify (frontmatter post)
     /\ title (frontmatter (refiled post)) = title (frontmatter post)
     /\ description (frontmatter (refiled post)) = description (frontmatter post)
     /\ datetime (frontmatter (refiled post)) = datetime (frontmatter post))
  /\ feed_items (JSDate.parse 0)
       (List.map refiled [shipped_post; post_B blank_post; undated_post])
     = feed_items (JSDate.parse 0)
         [shipped_post; post_B blank_post; undated_post].
Proof.
  assert (H : forall post,
     ToBoolean (draft (frontmatter (refiled post)))
     = ToBoolean (draft (frontmatter post))
     /\ Slugify.slugify (frontmatter (refiled post))
        = Slugify.slugify (frontmatter post)
     /\ title (frontmatter (refiled post)) = title (frontmatter post)
     /\ description (frontmatter (refiled post)) = description (frontmatter post)
     /\ datetime (frontmatter (refiled post)) = datetime (frontmatter post)).
  { intros post. repeat split. }
  split; [exact H|].
  exact (feed_items_reads (JSDate.parse 0) refiled
           [shipped_post; post_B blank_post; undated_post] H).
Defined.

(** X11.  The draft test and the tag filter can be applied in either order,
    and the feed of the posts of one tag is a subsequence of the feed of all
    posts. *)
Theorem feed_items_of_tag
    (Date_parse : string -> option Z) (P : list MarkdownInstance) (T : string) :
  List.filter not_draft (getPostsByTag P T)
  = getPostsByTag (List.filter not_draft P) T
  /\ sublist (feed_items Date_parse (getPostsByTag P T))
       (feed_items Date_parse P).
Proof.
  split.
  - unfold getPostsByTag. apply filter_swap.
  - unfold feed_items. apply (fmap_sublist (feedItem Date_parse)).
    apply filter_sublist_mono. unfold getPostsByTag. apply filter_sublist.
Qed.

(** X12.  Two feed items have the same link exactly when their posts have the
    same slug. *)
Theorem feedItem_same_link
    (Date_parse : string -> option Z) (post1 post2 : MarkdownInstance) :
  RSSFeedItem.link (feedItem Date_parse post1)
  = RSSFeedItem.link (feedItem Date_parse post2)
  <-> Slugify.slugify (frontmatter post1) = Slugify.slugify (frontmatter post2).
Proof.
  simpl. split.
  - intros H. now injection H.
  - now intros ->.
Qed.

(** X13.  The feed builder does not look for posts that share a slug: two
    posts that pass the draft test and have the same slug both get their
    item, each in its place, and the two items carry the same link. *)
Theorem feed_items_same_slug
    (Date_parse : string -> option Z)
    (pre mid suf : list MarkdownInstance) (post1 post2 : MarkdownInstance) :
  not_draft post1 = true ->
  not_draft post2 = true ->
  Slugify.slugify (frontmatter post1) = Slugify.slugify (frontmatter post2) ->
  feed_items Date_parse (pre ++ post1 :: mid ++ post2 :: suf)
  = feed_items Date_parse pre
    ++ feedItem Date_parse post1
       :: feed_items Date_parse mid
          ++ feedItem Date_parse post2 :: feed_items Date_parse suf
  /\ RSSFeedItem.link (feedItem Date_parse post1)
     = RSSFeedItem.link (feedItem Date_parse post2).
Proof.
  intros H1 H2 Hslug. split.
  - rewrite feed_items_middle, H1. simpl. do 2 f_equal.
    now rewrite feed_items_middle, H2.
  - simpl. now rewrite Hslug.
Qed.

Lemma feed_items_same_slug_witness :
  not_draft (example_post "Hello World!" [] false blank_post) = true
  /\ not_draft (example_post "hello, world" [] false blank_post) = true
  /\ Slugify.slugify (frontmatter (example_post "Hello World!" [] false blank_post))
     = Slugify.slugify (frontmatter (example_post "hello, world" [] false blank_post))
  /\ List.map RSSFeedItem.link
       (feed_items (JSDate.parse 0)
          ([] ++ example_post "Hello World!" [] false blank_post
              :: [post_B blank_post]
              ++ example_post "hello, world" [] false blank_post :: []))
     = ["posts/hello-world"; "posts/hello-world"].
Proof.
  split; [reflexivity|]. split; [reflexivity|]. split; [reflexivity|].
  rewrite (proj1 (feed_items_same_slug (JSDate.parse 0) [] [post_B blank_post] []
                    (example_post "Hello World!" [] false blank_post)
                    (example_post "hello, world" [] false blank_post)
                    eq_refl eq_refl eq_refl)).
  reflexivity.
Defined.
